(** * fambb-ui: the HTTP request layer [src/lib/data/api.ts]

    A shallow embedding of the dispatcher [apiCall] and of the resource
    operations built on it, followed by the properties the specification
    states about them.

    Conventions of the embedding.
    - JavaScript values are the type [value]; numbers are the integers the
      layer handles (offsets, counts, identifiers, HTTP statuses).  A number
      is a double: integers of magnitude up to 2^53 are held exactly and
      print in decimal, and a sum is rounded to the nearest double
      ([double_round]).  Properties that depend on which integer gives which
      text or which sum are stated for integers of that range ([exact]).
    - An [async] function is a computation in the monad [M]: it threads the
      [World] (the shared session store and the log of effects performed so
      far) and either resolves with a value or rejects with an exception.
    - The collaborators that live outside the file (the network, the JSON
      codec, the configured base URL) are the fields of the class [Env]. *)

From Stdlib Require Import ZArith String Ascii List Bool Lia.
From stdpp Require Import strings pretty gmap.

Set Warnings "-register-all".

(* [simpl] may unfold an append whose first argument starts with a
   constructor. *)
#[local] Arguments String.append !s1 s2 : simpl nomatch.

Open Scope string_scope.
Open Scope list_scope.
Open Scope Z_scope.

(* ===================================================================== *)
(** * JavaScript values *)
(* ===================================================================== *)

Inductive value : Type :=
| VUndefined
| VNull
| VBool (b : bool)
| VNum (n : Z)
| VNaN
| VStr (s : string)
| VArr (items : list value)
| VObj (fields : list (string * value)).

(** Own properties of an object, in insertion order. *)
Fixpoint assoc (k : string) (fs : list (string * value)) : option value :=
  match fs with
  | [] => None
  | (k', v) :: fs' => if String.eqb k k' then Some v else assoc k fs'
  end.

(** ToBoolean, as used by [x ? a : b], [if (x)] and [x && y]. *)
Definition truthy (v : value) : bool :=
  match v with
  | VUndefined | VNull | VNaN => false
  | VBool b => b
  | VNum n => negb (n =? 0)
  | VStr s => negb (String.eqb s "")
  | VArr _ | VObj _ => true
  end.

(** [x ?? undefined]: [null] and [undefined] both become [undefined]. *)
Definition nullish_undefined (v : value) : value :=
  match v with
  | VNull | VUndefined => VUndefined
  | _ => v
  end.

(** ToString.  Objects decoded from JSON carry no methods of their own, so
    the inherited [toString] applies.  A number prints in decimal, as the
    integers below 10^21 do. *)
Fixpoint js_to_string (v : value) : string :=
  match v with
  | VUndefined => "undefined"
  | VNull => "null"
  | VBool true => "true"
  | VBool false => "false"
  | VNum n => pretty n
  | VNaN => "NaN"
  | VStr s => s
  | VArr l =>
      String.concat ","
        (map (fun x => match x with
                       | VUndefined | VNull => ""
                       | _ => js_to_string x
                       end) l)
  | VObj _ => "[object Object]"
  end.

(** The double nearest to an integer.  An integer of at most 53 bits is
    its own double; a longer one loses its low bits, rounded to nearest with
    ties going to the even significand.  (Overflow to infinity is out of
    reach here: the sums taken add an array length to a double.) *)
Definition double_round (z : Z) : Z :=
  let a := Z.abs z in
  let e := Z.log2 a - 52 in
  if e <=? 0 then z
  else
    let ulp := 2 ^ e in
    let q := a / ulp in
    let r := a mod ulp in
    let half := ulp / 2 in
    let q' := if (half <? r) || ((r =? half) && Z.odd q) then q + 1 else q in
    Z.sgn z * (q' * ulp).

(** An integer of magnitude at most 2^53: every such integer is a double of
    its own, and prints in decimal. *)
Definition exact (z : Z) : bool := Z.abs z <=? 2 ^ 53.

Definition exact_opt (z : option Z) : bool :=
  match z with
  | Some z => exact z
  | None => true
  end.

(** [c + v] for a number [c]: the sum of two numbers is a double. *)
Definition js_add (c : Z) (v : value) : value :=
  match v with
  | VNum n => VNum (double_round (c + n))
  | VNull => VNum c
  | VBool b => VNum (double_round (c + (if b then 1 else 0)))
  | VUndefined | VNaN => VNaN
  | VStr _ | VArr _ | VObj _ => VStr (pretty c +:+ js_to_string v)
  end.

(* ===================================================================== *)
(** * Requests, responses, the session store *)
(* ===================================================================== *)

(** The argument of [fetch]: the address and the init object
    [{ method, headers, body }].  A body of [None] is [undefined]: the field
    carries nothing. *)
Record Request : Type := {
  req_url : string;
  req_method : string;
  req_headers : gmap string string;
  req_body : option string;
}.

(** What the transport delivers: the status line and the body text. *)
Record Response : Type := {
  status : Z;
  body_text : string;
}.

(** [response.ok]: the status lies in 200..299. *)
Definition ok (r : Response) : bool :=
  (200 <=? status r) && (status r <=? 299).

(** The part of the identity type this layer reads. *)
Record Identity : Type := {
  accessToken : string;
}.

(** The session store [persistent]: the identity held in memory and the
    copy in durable storage. *)
Record Persistent : Type := {
  identity : option Identity;
  stored : option Identity;
}.

(** Effects, in the order they are performed. *)
Inductive Event : Type :=
| EvFetch (r : Request)
| EvText
| EvJson
| EvSetIdentity (i : option Identity)
| EvFlush.

Record World : Type := {
  persistent : Persistent;
  log : list Event;
}.

(** Rejections, by where they are raised.  [Error message] is the error
    [apiCall] constructs itself; [TypeError] is raised by a member access on
    [null] or [undefined], [SyntaxError] by the decoding of a body, and
    [NetworkError] by [fetch] (the engine raises it as a type error).  The
    messages the engine gives to its own errors are not modelled. *)
Inductive exn : Type :=
| Error (message : string)
| TypeError
| SyntaxError
| NetworkError.

Inductive Result (A : Type) : Type :=
| Ok (a : A)
| Throw (e : exn).
Arguments Ok {A} a.
Arguments Throw {A} e.

(* ===================================================================== *)
(** * The monad of asynchronous computations *)
(* ===================================================================== *)

Definition M (A : Type) : Type := World -> World * Result A.

Definition ret {A} (a : A) : M A := fun w => (w, Ok a).

Definition throw {A} (e : exn) : M A := fun w => (w, Throw e).

Definition bind {A B} (m : M A) (k : A -> M B) : M B :=
  fun w =>
    match m w with
    | (w', Ok a) => k a w'
    | (w', Throw e) => (w', Throw e)
    end.

Definition lift {A} (r : Result A) : M A := fun w => (w, r).

Declare Scope api_scope.
Delimit Scope api_scope with api.
Notation "'await' x <- m ;; k" := (bind m (fun x => k))
  (at level 10, x name, m at level 99, k at level 200) : api_scope.
Notation "'run' m ;; k" := (bind m (fun _ => k))
  (at level 10, m at level 99, k at level 200) : api_scope.
Open Scope api_scope.

Definition emit (e : Event) : M unit :=
  fun w => ({| persistent := persistent w; log := log w ++ [e] |}, Ok tt).

(** [persistent.identity] *)
Definition get_identity : M (option Identity) :=
  fun w => (w, Ok (identity (persistent w))).

(** Modelled from the spec: the session store is declared in
    [persistent.svelte], outside this file.  [persistent.identity = i]
    replaces the identity held in memory. *)
Definition set_identity (i : option Identity) : M unit :=
  fun w =>
    ({| persistent := {| identity := i; stored := stored (persistent w) |};
        log := log w ++ [EvSetIdentity i] |}, Ok tt).

(** Modelled from the spec: [persistent.flush()] commits the state held in
    memory to durable storage. *)
Definition flush : M unit :=
  fun w =>
    ({| persistent := {| identity := identity (persistent w);
                         stored := identity (persistent w) |};
        log := log w ++ [EvFlush] |}, Ok tt).

(** Member access [v.k]. *)
Definition get_prop (v : value) (k : string) : Result value :=
  match v with
  | VUndefined | VNull => Throw TypeError
  | VObj fs => Ok (default VUndefined (assoc k fs))
  | VArr l =>
      Ok (if String.eqb k "length" then VNum (Z.of_nat (length l))
          else VUndefined)
  | VStr s =>
      Ok (if String.eqb k "length" then VNum (Z.of_nat (String.length s))
          else VUndefined)
  | VBool _ | VNum _ | VNaN => Ok VUndefined
  end.

(* ===================================================================== *)
(** * The environment *)
(* ===================================================================== *)

Class Env : Type := {
  (** [PUBLIC_BASE_URL] *)
  BASE_URL : string;
  (** the transport: [None] when the exchange does not complete *)
  network : Request -> option Response;
  (** [JSON.parse]: [None] on malformed text *)
  JSON_parse : string -> option value;
  (** [JSON.stringify] *)
  JSON_stringify : value -> string;
}.

Section Dispatcher.
Context `{Env}.

(** [fetch(url, init)] *)
Definition fetch (r : Request) : M Response :=
  run emit (EvFetch r) ;;
  match network r with
  | Some resp => ret resp
  | None => throw NetworkError
  end.

(** [response.text()] *)
Definition response_text (r : Response) : M string :=
  run emit EvText ;; ret (body_text r).

(** [response.json()] *)
Definition response_json (r : Response) : M value :=
  run emit EvJson ;;
  match JSON_parse (body_text r) with
  | Some v => ret v
  | None => throw SyntaxError
  end.

(** The access token [persistent.identity?.accessToken] when it is truthy. *)
Definition bearer (i : option Identity) : option string :=
  match i with
  | Some i =>
      if truthy (VStr (accessToken i)) then Some (accessToken i) else None
  | None => None
  end.

(** The request [apiCall] hands to [fetch]: the headers, the full address
    and the init object, given the identity read from the session store. *)
Definition apiRequest (url method : string) (body : value)
    (i : option Identity) : Request :=
  let headers : gmap string string :=
    {[ "Content-Type" := "application/json" ]} in
  let headers :=
    match bearer i with
    | Some token => <[ "Authorization" := "Bearer " +:+ token ]> headers
    | None => headers
    end in
  let fullUrl := BASE_URL +:+ url in
  {| req_url := fullUrl;
     req_method := method;
     req_headers := headers;
     req_body := if truthy body then Some (JSON_stringify body) else None |}.

(** An omitted [method] is ["GET"]; an omitted [body] is [VUndefined]. *)
Definition apiCall (url method : string) (body : value) : M value :=
  await i <- get_identity ;;
  await response <- fetch (apiRequest url method body i) ;;
  if negb (ok response) then
    await error <- response_text response ;;
    run (if status response =? 401
         then (run set_identity None ;; flush)
         else ret tt) ;;
    throw (Error ("API error: " +:+ pretty (status response)
                  +:+ " - " +:+ error))
  else if status response =? 204 then ret VNull
  else response_json response.

End Dispatcher.

(* ===================================================================== *)
(** * Resource operations *)
(* ===================================================================== *)

(** The filter object of the analytics query: each field may be left out. *)
Record AnalyticsFiltersQueryParams : Type := {
  startDate : option string;
  endDate : option string;
  pattern : option string;
}.

(** A string that is present and not empty, the strings [if (s)] accepts. *)
Definition nonempty (s : option string) : option string :=
  match s with
  | Some s => if truthy (VStr s) then Some s else None
  | None => None
  end.

(** [particles.push(p)] when the filter is not [null]. *)
Definition push_if {A} (urlParticles : list string) (filter : option A)
    (particle : A -> string) : list string :=
  match filter with
  | Some v => urlParticles ++ [particle v]
  | None => urlParticles
  end.

(** The address [transactionsList] asks for.  An omitted [context] is 0 and
    an omitted [limit] is 15; an omitted filter is [null].  Numbers are
    interpolated in decimal, as the integers below 10^21 are. *)
Definition transactionsUrl
    (currencyId costCategoryId : option Z)
    (period startDate endDate operation : option string)
    (context limit : Z) : string :=
  let urlParticles :=
    ["/transactions?context=" +:+ pretty context
       +:+ "&limit=" +:+ pretty limit] in
  let urlParticles :=
    push_if urlParticles currencyId (fun v => "&currencyId=" +:+ pretty v) in
  let urlParticles :=
    push_if urlParticles costCategoryId
      (fun v => "&costCategoryId=" +:+ pretty v) in
  let urlParticles :=
    push_if urlParticles period (fun v => "&period=" +:+ v) in
  let urlParticles :=
    push_if urlParticles startDate (fun v => "&startDate=" +:+ v) in
  let urlParticles :=
    push_if urlParticles endDate (fun v => "&endDate=" +:+ v) in
  let urlParticles :=
    push_if urlParticles operation (fun v => "&operation=" +:+ v) in
  String.concat "" urlParticles.

(** The address [fetchBasicAnalyticsFiltered] asks for. *)
Definition analyticsFilteredUrl (filters : AnalyticsFiltersQueryParams)
    : string :=
  let url := "/analytics/basic" in
  let url :=
    match nonempty (startDate filters), nonempty (endDate filters) with
    | Some s, Some e => url +:+ "?startDate=" +:+ s +:+ "&endDate=" +:+ e
    | _, _ => url
    end in
  match nonempty (pattern filters) with
  | Some p =>
      match nonempty (startDate filters), nonempty (endDate filters) with
      | Some _, Some _ => url +:+ "&pattern=" +:+ p
      | _, _ => url +:+ "?pattern=" +:+ p
      end
  | None => url
  end.

Section Operations.
Context `{Env}.

Definition transactionsList
    (currencyId costCategoryId : option Z)
    (period startDate endDate operation : option string)
    (context limit : option Z) : M value :=
  let context := default 0 context in
  let limit := default 15 limit in
  let url :=
    transactionsUrl currencyId costCategoryId period startDate endDate
      operation context limit in
  await results <- apiCall url "GET" VUndefined ;;
  await items <- lift (get_prop results "result") ;;
  await n <- lift (get_prop items "length") ;;
  let newContext := js_add context n in
  await left <- lift (get_prop results "left") ;;
  await result <- lift (get_prop results "result") ;;
  ret (VObj [("context", newContext); ("left", left); ("result", result)]).

Definition costCategoriesList : M value :=
  apiCall "/costs/categories" "GET" VUndefined.

Definition costShortcutsList : M value :=
  apiCall "/costs/shortcuts" "GET" VUndefined.

Definition costShortcutApply (shortcutId : Z) (requestBody : value)
    : M value :=
  apiCall ("/costs/shortcuts/" +:+ pretty shortcutId) "POST"
    (nullish_undefined requestBody).

Definition notificationsList : M value :=
  await response <- apiCall "/notifications" "GET" VUndefined ;;
  lift (get_prop response "result").

Definition equityList : M value :=
  apiCall "/analytics/equity" "GET" VUndefined.

Definition fetchBasicAnalyticsByPeriod (period : string) : M value :=
  await response <-
    apiCall ("/analytics/basic?period=" +:+ period) "GET" VUndefined ;;
  lift (get_prop response "result").

Definition fetchBasicAnalyticsFiltered (filters : AnalyticsFiltersQueryParams)
    : M value :=
  let url := analyticsFilteredUrl filters in
  await response <- apiCall url "GET" VUndefined ;;
  lift (get_prop response "result").

(** The remaining operations.  A [Promise<void>] operation awaits the
    dispatcher and returns nothing: it resolves with [undefined]. *)

Definition userAuth (request : value) : M value :=
  apiCall "/identity/auth" "POST" request.

Definition costCreate (requestBody : value) : M value :=
  apiCall "/costs" "POST" requestBody.

Definition costRetrieve (costId : Z) : M value :=
  apiCall ("/costs/" +:+ pretty costId) "GET" VUndefined.

Definition costUpdate (costId : Z) (requestBody : value) : M value :=
  apiCall ("/costs/" +:+ pretty costId) "PATCH" requestBody.

Definition costDelete (costId : Z) : M value :=
  run apiCall ("/costs/" +:+ pretty costId) "DELETE" VUndefined ;;
  ret VUndefined.

Definition costShortcutCreate (requestBody : value) : M value :=
  apiCall "/costs/shortcuts" "POST" requestBody.

Definition costShortcutDelete (costShortcutId : Z) : M value :=
  run apiCall ("/costs/shortcuts/" +:+ js_to_string (VNum costShortcutId))
        "DELETE" VUndefined ;;
  ret VUndefined.

Definition incomeCreate (requestBody : value) : M value :=
  apiCall "/incomes" "POST" requestBody.

Definition incomeRetrieve (incomeId : Z) : M value :=
  apiCall ("/incomes/" +:+ pretty incomeId) "GET" VUndefined.

Definition incomeUpdate (incomeId : Z) (requestBody : value) : M value :=
  apiCall ("/incomes/" +:+ pretty incomeId) "PATCH" requestBody.

Definition incomeDelete (incomeId : Z) : M value :=
  run apiCall ("/incomes/" +:+ pretty incomeId) "DELETE" VUndefined ;;
  ret VUndefined.

Definition exchangeCreate (requestBody : value) : M value :=
  apiCall "/exchange" "POST" requestBody.

Definition exchangeRetrieve (exchangeId : Z) : M value :=
  apiCall ("/exchange/" +:+ pretty exchangeId) "GET" VUndefined.

Definition exchangeDelete (exchangeId : Z) : M value :=
  run apiCall ("/exchange/" +:+ pretty exchangeId) "DELETE" VUndefined ;;
  ret VUndefined.

Definition configurationUpdate (requestBody : value) : M value :=
  apiCall "/identity/users/configuration" "PATCH" requestBody.

(** The exported operations with their arguments, so that a property can
    be stated once for all of them. *)
Inductive Operation : Type :=
| UserAuth (request : value)
| TransactionsList (currencyId costCategoryId : option Z)
    (period startDate endDate operation : option string)
    (context limit : option Z)
| CostCategoriesList
| CostCreate (requestBody : value)
| CostRetrieve (costId : Z)
| CostUpdate (costId : Z) (requestBody : value)
| CostDelete (costId : Z)
| CostShortcutCreate (requestBody : value)
| CostShortcutsList
| CostShortcutDelete (costShortcutId : Z)
| CostShortcutApply (shortcutId : Z) (requestBody : value)
| IncomeCreate (requestBody : value)
| IncomeRetrieve (incomeId : Z)
| IncomeUpdate (incomeId : Z) (requestBody : value)
| IncomeDelete (incomeId : Z)
| ExchangeCreate (requestBody : value)
| ExchangeRetrieve (exchangeId : Z)
| ExchangeDelete (exchangeId : Z)
| NotificationsList
| EquityList
| FetchBasicAnalyticsByPeriod (period : string)
| FetchBasicAnalyticsFiltered (filters : AnalyticsFiltersQueryParams)
| ConfigurationUpdate (requestBody : value).

Definition perform (op : Operation) : M value :=
  match op with
  | UserAuth request => userAuth request
  | TransactionsList currencyId costCategoryId period startDate endDate
      operation context limit =>
      transactionsList currencyId costCategoryId period startDate endDate
        operation context limit
  | CostCategoriesList => costCategoriesList
  | CostCreate requestBody => costCreate requestBody
  | CostRetrieve costId => costRetrieve costId
  | CostUpdate costId requestBody => costUpdate costId requestBody
  | CostDelete costId => costDelete costId
  | CostShortcutCreate requestBody => costShortcutCreate requestBody
  | CostShortcutsList => costShortcutsList
  | CostShortcutDelete costShortcutId => costShortcutDelete costShortcutId
  | CostShortcutApply shortcutId requestBody =>
      costShortcutApply shortcutId requestBody
  | IncomeCreate requestBody => incomeCreate requestBody
  | IncomeRetrieve incomeId => incomeRetrieve incomeId
  | IncomeUpdate incomeId requestBody => incomeUpdate incomeId requestBody
  | IncomeDelete incomeId => incomeDelete incomeId
  | ExchangeCreate requestBody => exchangeCreate requestBody
  | ExchangeRetrieve exchangeId => exchangeRetrieve exchangeId
  | ExchangeDelete exchangeId => exchangeDelete exchangeId
  | NotificationsList => notificationsList
  | EquityList => equityList
  | FetchBasicAnalyticsByPeriod period => fetchBasicAnalyticsByPeriod period
  | FetchBasicAnalyticsFiltered filters => fetchBasicAnalyticsFiltered filters
  | ConfigurationUpdate requestBody => configurationUpdate requestBody
  end.

End Operations.

(* ===================================================================== *)
(** * Environments and worlds to run the code on *)
(* ===================================================================== *)

(** A server that answers every request with the same status and text,
    the text decoding to [decoded].  Every request body is written as the
    empty object: nothing below reads the text of a request body. *)
Definition fixed_env (st : Z) (text : string) (decoded : option value)
    : Env :=
  {| BASE_URL := "https://api.example";
     network := fun _ => Some {| status := st; body_text := text |};
     JSON_parse := fun _ => decoded;
     JSON_stringify := fun _ => "{}" |}.

(** The world after [fetch]: the request is in the log. *)
Definition sent (w : World) (r : Request) : World :=
  {| persistent := persistent w; log := log w ++ [EvFetch r] |}.

Definition signed_in (token : string) : World :=
  {| persistent := {| identity := Some {| accessToken := token |};
                      stored := Some {| accessToken := token |} |};
     log := [] |}.

(** A page of two transactions out of a list with forty more to come; the
    server reports a context of its own. *)
Definition page : value :=
  VObj [("result", VArr [VStr "t6"; VStr "t7"]);
        ("left", VNum 40);
        ("context", VNum 99)].

Definition page_env : Env := fixed_env 200 "(a page)" (Some page).

(** A multi-result envelope around one cost category. *)
Definition categories : value := VObj [("result", VArr [VStr "Food"])].

Definition categories_env : Env :=
  fixed_env 200 "(the categories)" (Some categories).

Definition signed_out : World :=
  {| persistent := {| identity := None; stored := None |}; log := [] |}.

(** No transport: no exchange completes. *)
Definition offline_env : Env :=
  {| BASE_URL := "https://api.example";
     network := fun _ => None;
     JSON_parse := fun _ => None;
     JSON_stringify := fun _ => "{}" |}.

(** A server with three transactions, handed out two to a page: the page
    at context 0 holds two of them, every other page the last one. *)
Definition first_page : value :=
  VObj [("result", VArr [VStr "t1"; VStr "t2"]);
        ("left", VNum 1);
        ("context", VNum 0)].

Definition last_page : value :=
  VObj [("result", VArr [VStr "t3"]);
        ("left", VNum 0);
        ("context", VNum 0)].

Definition paging_env : Env :=
  {| BASE_URL := "https://api.example";
     network := fun r =>
       Some {| status := 200;
               body_text :=
                 if String.eqb (req_url r)
                      "https://api.example/transactions?context=0&limit=2"
                 then "first" else "last" |};
     JSON_parse := fun s =>
       if String.eqb s "first" then Some first_page else Some last_page;
     JSON_stringify := fun _ => "{}" |}.

(** The session store once the identity is cleared and flushed. *)
Definition cleared : Persistent := {| identity := None; stored := None |}.

(** The event is the sending of a request. *)
Definition is_fetch (e : Event) : bool :=
  match e with
  | EvFetch _ => true
  | _ => false
  end.

(** The operations declared [Promise<void>]. *)
Definition is_delete (op : Operation) : bool :=
  match op with
  | CostDelete _ | CostShortcutDelete _ | IncomeDelete _ | ExchangeDelete _ =>
      true
  | _ => false
  end.

(** The operations that read [.result] off what the dispatcher resolved
    with. *)
Definition reads_result (op : Operation) : bool :=
  match op with
  | TransactionsList _ _ _ _ _ _ _ _ | NotificationsList
  | FetchBasicAnalyticsByPeriod _ | FetchBasicAnalyticsFiltered _ => true
  | _ => false
  end.

(** The operation that goes on to read [.length] off that result. *)
Definition reads_length (op : Operation) : bool :=
  match op with
  | TransactionsList _ _ _ _ _ _ _ _ => true
  | _ => false
  end.

(** The request body an operation is called with, when it takes one. *)
Definition op_payload (op : Operation) : option value :=
  match op with
  | UserAuth b | CostCreate b | CostUpdate _ b | CostShortcutCreate b
  | CostShortcutApply _ b | IncomeCreate b | IncomeUpdate _ b
  | ExchangeCreate b | ConfigurationUpdate b => Some b
  | _ => None
  end.

(** An operation keyed by an identifier sends different requests for
    different identifiers, the identifiers being integers of magnitude at
    most 2^53. *)
Definition distinguishes_ids (f : Z -> M value) : Prop :=
  forall a b w,
    exact a = true -> exact b = true ->
    log (f a w).1 = log (f b w).1 -> a = b.

(** The filters as [if (s)] reads them: an empty string counts as absent. *)
Definition read_filters (filters : AnalyticsFiltersQueryParams)
    : AnalyticsFiltersQueryParams :=
  {| startDate := nonempty (startDate filters);
     endDate := nonempty (endDate filters);
     pattern := nonempty (pattern filters) |}.

(* ===================================================================== *)
(** * Predicates on addresses *)
(* ===================================================================== *)

(** [occurs sub s]: the text [sub] is found somewhere in [s]. *)
Fixpoint occurs (sub s : string) : bool :=
  String.prefix sub s ||
  match s with
  | EmptyString => false
  | String _ s' => occurs sub s'
  end.

(** The two separators of a query string. *)
Definition is_separator (c : ascii) : bool :=
  Ascii.eqb c "?" || Ascii.eqb c "&".

Fixpoint count_question (s : string) : nat :=
  match s with
  | EmptyString => 0%nat
  | String c s' =>
      ((if Ascii.eqb c "?" then 1 else 0) + count_question s')%nat
  end.

Definition starts_with_separator (s : string) : bool :=
  match s with
  | EmptyString => false
  | String c _ => is_separator c
  end.

Fixpoint ends_with_separator (s : string) : bool :=
  match s with
  | EmptyString => false
  | String c EmptyString => is_separator c
  | String _ s' => ends_with_separator s'
  end.

Fixpoint adjacent_separators (s : string) : bool :=
  match s with
  | EmptyString => false
  | String c s' =>
      (is_separator c && starts_with_separator s') || adjacent_separators s'
  end.

Fixpoint separator_free (s : string) : bool :=
  match s with
  | EmptyString => true
  | String c s' => negb (is_separator c) && separator_free s'
  end.

(** At most one ['?'], no two separators in a row, no separator at the
    end. *)
Definition well_separated (url : string) : Prop :=
  (count_question url <= 1)%nat
  /\ adjacent_separators url = false
  /\ ends_with_separator url = false.

(** A filter value that is absent, or present without a separator in it. *)
Definition plain (s : option string) : bool :=
  match s with
  | Some s => separator_free s
  | None => true
  end.

(** One optional query parameter as the specification words it:
    ["&<key>=<value>"] when the filter is there, nothing otherwise. *)
Definition query_particle (key : string) (v : option string) : string :=
  match v with
  | Some v => "&" +:+ key +:+ "=" +:+ v
  | None => ""
  end.

(** An operation unwraps the multi-result envelope of the address [url]:
    whenever the dispatcher resolves with [{ result: items, ... }] the
    operation resolves with the bare [items]. *)
Definition unwraps_envelope `{Env} (url : string) (op : M value) : Prop :=
  forall w w' fields items,
    apiCall url "GET" VUndefined w = (w', Ok (VObj fields)) ->
    assoc "result" fields = Some (VArr items) ->
    op w = (w', Ok (VArr items)).

(** An operation hands the envelope on as it came. *)
Definition passes_envelope `{Env} (url : string) (op : M value) : Prop :=
  forall w w' fields,
    apiCall url "GET" VUndefined w = (w', Ok (VObj fields)) ->
    op w = (w', Ok (VObj fields)).

(** Exactly one end of the date range is given. *)
Definition exactly_one_date (filters : AnalyticsFiltersQueryParams) : bool :=
  match startDate filters, endDate filters with
  | Some _, None | None, Some _ => true
  | _, _ => false
  end.

(** The filters with the date range taken out. *)
Definition without_dates (filters : AnalyticsFiltersQueryParams)
    : AnalyticsFiltersQueryParams :=
  {| startDate := None; endDate := None; pattern := pattern filters |}.

(* ===================================================================== *)
(** * Lemmas on strings *)
(* ===================================================================== *)

Lemma append_nil_r (s : string) : s +:+ "" = s.
Proof. induction s as [|c s IH]; simpl; congruence. Qed.

Lemma append_assoc (a b c : string) : (a +:+ b) +:+ c = a +:+ (b +:+ c).
Proof. induction a as [|x a IH]; simpl; congruence. Qed.





(* ===================================================================== *)
(** * The dispatcher *)
(* ===================================================================== *)

Section DispatcherProperties.
Context `{Env}.

(** What [apiCall] does, by the answer of the transport. *)
Lemma apiCall_cases (url method : string) (body : value) (w : World) :
  let req := apiRequest url method body (identity (persistent w)) in
  apiCall url method body w =
  match network req with
  | None => (sent w req, Throw NetworkError)
  | Some response =>
      (if negb (ok response) then
         await error <- response_text response ;;
         run (if status response =? 401
              then (run set_identity None ;; flush)
              else ret tt) ;;
         throw (Error ("API error: " +:+ pretty (status response)
                       +:+ " - " +:+ error))
       else if status response =? 204 then ret VNull
       else response_json response) (sent w req)
  end.
Proof.
  intros req. subst req.
  destruct (network _) as [response|] eqn:E;
    unfold apiCall, bind, get_identity, fetch, emit, ret, throw, sent;
    rewrite E; reflexivity.
Qed.

(** Every call sends its request first. *)
Lemma apiCall_sends (url method : string) (body : value) (w : World) :
  exists rest,
    log (apiCall url method body w).1 =
    log w ++ EvFetch (apiRequest url method body (identity (persistent w)))
          :: rest.
Proof.
  rewrite apiCall_cases. cbv zeta.
  set (req := apiRequest _ _ _ _).
  destruct (network req) as [response|]; [|exists []; reflexivity].
  destruct (ok response); simpl.
  - destruct (status response =? 204); [exists []; reflexivity|].
    unfold response_json, bind, emit; simpl.
    exists [EvJson]. rewrite <- app_assoc.
    destruct (JSON_parse _); reflexivity.
  - unfold response_text, set_identity, flush, bind, emit, ret, throw; simpl.
    destruct (status response =? 401); simpl;
      rewrite <- ?app_assoc; eexists; reflexivity.
Qed.

(** C3.  The request built by [apiCall] carries [Authorization] equal to
    ["Bearer <token>"] when the session store holds an identity whose access
    token is not empty; when there is no identity, or its token is empty,
    the headers have no [Authorization] entry at all.  [Content-Type] is
    always there, and in every case the request is sent. *)
Theorem apiCall_authorization_header
    (url method : string) (body : value) (w : World) :
  let req := apiRequest url method body (identity (persistent w)) in
  match identity (persistent w) with
  | Some i =>
      if String.eqb (accessToken i) ""
      then req_headers req !! "Authorization" = None
      else req_headers req !! "Authorization"
           = Some ("Bearer " +:+ accessToken i)
  | None => req_headers req !! "Authorization" = None
  end
  /\ req_headers req !! "Content-Type" = Some "application/json"
  /\ exists rest, log (apiCall url method body w).1
                  = log w ++ EvFetch req :: rest.
Proof.
  intros req. split; [|split].
  - subst req. unfold apiRequest, bearer; simpl.
    destruct (identity (persistent w)) as [i|]; simpl.
    + destruct (String.eqb (accessToken i) ""); simpl.
      * now apply lookup_singleton_ne.
      * now apply lookup_insert_eq.
    + now apply lookup_singleton_ne.
  - subst req. unfold apiRequest; simpl.
    destruct (bearer _); simpl.
    + rewrite lookup_insert_ne by discriminate. now apply lookup_singleton_eq.
    + now apply lookup_singleton_eq.
  - apply apiCall_sends.
Qed.



(** C5.  When the response has status 204 the call resolves with [null];
    the body is never decoded: the log gains the request and nothing else,
    whatever [JSON.parse] would have made of the body. *)
Theorem apiCall_204_null
    (url method : string) (body : value) (w : World) (response : Response) :
  let req := apiRequest url method body (identity (persistent w)) in
  network req = Some response ->
  status response = 204 ->
  apiCall url method body w =
  ({| persistent := persistent w; log := log w ++ [EvFetch req] |}, Ok VNull).
Proof.
  intros req Hnet Hst. rewrite apiCall_cases. fold req. rewrite Hnet.
  unfold ok. rewrite Hst. reflexivity.
Qed.

End DispatcherProperties.

(* ===================================================================== *)
(** * The resource operations *)
(* ===================================================================== *)

(** Within 53 bits nothing is rounded off. *)
Lemma double_round_exact (z : Z) : exact z = true -> double_round z = z.
Proof.
  unfold exact. intros Hz. apply Z.leb_le in Hz.
  destruct (Z.eq_dec (Z.abs z) (2 ^ 53)) as [E|N].
  - assert (Hz' : z = 2 ^ 53 \/ z = - 2 ^ 53) by lia.
    destruct Hz' as [-> | ->]; reflexivity.
  - unfold double_round. cbv zeta.
    assert (Hlog : Z.log2 (Z.abs z) < 53).
    { destruct (Z.eq_dec (Z.abs z) 0) as [-> | Hpos]; [reflexivity|].
      apply Z.log2_lt_pow2; lia. }
    destruct (Z.leb_spec (Z.log2 (Z.abs z) - 52) 0); [reflexivity | lia].
Qed.

Lemma concat_push (l : list string) (x : string) :
  String.concat "" (l ++ [x]) = String.concat "" l +:+ x.
Proof.
  induction l as [|y l IH]; [reflexivity|].
  destruct l as [|z l].
  - reflexivity.
  - change (y +:+ "" +:+ String.concat "" ((z :: l) ++ [x])
            = (y +:+ "" +:+ String.concat "" (z :: l)) +:+ x).
    rewrite IH. simpl. now rewrite append_assoc.
Qed.

Lemma concat_push_if {A} (l : list string) (filter : option A)
    (particle : A -> string) :
  String.concat "" (push_if l filter particle) =
  String.concat "" l +:+
  match filter with Some v => particle v | None => "" end.
Proof.
  destruct filter; simpl.
  - apply concat_push.
  - now rewrite append_nil_r.
Qed.

Section OperationProperties.
Context `{Env}.

(** A continuation that only computes leaves the log of the call alone. *)
Lemma bind_lift_log {A} (m : M value) (k : value -> Result A) (w : World) :
  log (bind m (fun v => lift (k v)) w).1 = log (m w).1.
Proof. unfold bind, lift. now destruct (m w) as [w' [v|e]]. Qed.

(** C6.  The address [transactionsList] builds is
    ["/transactions?context=<context>&limit=<limit>"] followed by one
    particle ["&<key>=<value>"] for each filter that is not [null], in the
    order currencyId, costCategoryId, period, startDate, endDate, operation;
    a [null] filter adds nothing.  That address, after the base URL, is the
    one the operation requests. *)
Theorem transactionsList_url
    (currencyId costCategoryId : option Z)
    (period startDate endDate operation : option string)
    (context limit : option Z) (w : World) :
  let url :=
    transactionsUrl currencyId costCategoryId period startDate endDate
      operation (default 0 context) (default 15 limit) in
  url =
    "/transactions?context=" +:+ pretty (default 0 context)
      +:+ "&limit=" +:+ pretty (default 15 limit)
      +:+ query_particle "currencyId" (pretty <$> currencyId)
      +:+ query_particle "costCategoryId" (pretty <$> costCategoryId)
      +:+ query_particle "period" period
      +:+ query_particle "startDate" startDate
      +:+ query_particle "endDate" endDate
      +:+ query_particle "operation" operation
  /\ exists req rest,
       log (transactionsList currencyId costCategoryId period startDate
              endDate operation context limit w).1
       = log w ++ EvFetch req :: rest
       /\ req_url req = BASE_URL +:+ url
       /\ req_method req = "GET".
Proof.
  intros url. split.
  - subst url. unfold transactionsUrl. rewrite !concat_push_if.
    change (String.concat "" [?x]) with x.
    rewrite !append_assoc.
    destruct currencyId, costCategoryId, period, startDate, endDate,
      operation; reflexivity.
  - destruct (apiCall_sends url "GET" VUndefined w) as [rest Hrest].
    exists (apiRequest url "GET" VUndefined (identity (persistent w))), rest.
    split; [|split; reflexivity].
    rewrite <- Hrest. unfold transactionsList. fold url.
    unfold bind, lift, ret.
    destruct (apiCall url "GET" VUndefined w) as [w' [results|e]];
      [|reflexivity].
    destruct (get_prop results "result") as [items|]; [|reflexivity].
    destruct (get_prop items "length"); [|reflexivity].
    destruct (get_prop results "left"); reflexivity.
Qed.

(** C1, as amended.  When the dispatcher resolves with a paginated payload
    whose [result] is the sequence [items] and whose [left] is [left], and
    the caller's context and its sum with the number of items are integers
    of magnitude at most 2^53, the operation resolves with
    [{ context, left, result }] where [result] and [left] are the server's
    own and [context] is the caller's context plus the number of items.
    Whatever the payload holds under [context] plays no part. *)
Theorem transactionsList_context
    (currencyId costCategoryId : option Z)
    (period startDate endDate operation : option string)
    (context limit : option Z) (w w' : World)
    (fields : list (string * value)) (items : list value) (left : value) :
  let c0 := default 0 context in
  exact c0 = true ->
  exact (c0 + Z.of_nat (length items)) = true ->
  apiCall
    (transactionsUrl currencyId costCategoryId period startDate endDate
       operation c0 (default 15 limit)) "GET" VUndefined w
  = (w', Ok (VObj fields)) ->
  assoc "result" fields = Some (VArr items) ->
  assoc "left" fields = Some left ->
  transactionsList currencyId costCategoryId period startDate endDate
    operation context limit w
  = (w', Ok (VObj [("context", VNum (c0 + Z.of_nat (length items)));
                   ("left", left);
                   ("result", VArr items)])).
Proof.
  intros c0 _ Hsum Hcall Hresult Hleft. unfold transactionsList. fold c0.
  unfold bind. rewrite Hcall. unfold lift, get_prop.
  rewrite Hresult, Hleft. simpl. now rewrite (double_round_exact _ Hsum).
Qed.

(** C1 as stated fails: past 2^53 the sum of the context and the number of
    items is rounded to a double, and a page of one item asked for at
    context 2^53 comes back with the context it was asked for. *)
Lemma transactionsList_context_past_2_53 :
  let c0 := 9007199254740992 in
  (@transactionsList paging_env None None None None None None (Some c0)
     (Some 2) (signed_in "tok")).2
  = Ok (VObj [("context", VNum c0);
              ("left", VNum 0);
              ("result", VArr [VStr "t3"])])
  /\ VNum c0 <> VNum (c0 + Z.of_nat (length [VStr "t3"])).
Proof. split; [vm_compute; reflexivity | discriminate]. Qed.

(** C9.  [costShortcutApply] called without a request body hands [fetch] a
    request whose body is absent; in particular it is not the text
    [JSON.stringify] gives for [null]. *)
Theorem costShortcutApply_no_body (shortcutId : Z) (w : World) :
  exists req rest,
    log (costShortcutApply shortcutId VUndefined w).1
    = log w ++ EvFetch req :: rest
    /\ req_url req = BASE_URL +:+ "/costs/shortcuts/" +:+ pretty shortcutId
    /\ req_method req = "POST"
    /\ req_body req = None
    /\ req_body req <> Some (JSON_stringify VNull).
Proof.
  unfold costShortcutApply.
  destruct (apiCall_sends ("/costs/shortcuts/" +:+ pretty shortcutId) "POST"
              (nullish_undefined VUndefined) w) as [rest Hrest].
  eexists _, rest. split; [exact Hrest|].
  repeat split. discriminate.
Qed.

(** C8, as amended.  [notificationsList], [fetchBasicAnalyticsByPeriod] and
    [fetchBasicAnalyticsFiltered] unwrap the multi-result envelope and
    resolve with the bare sequence; [costCategoriesList],
    [costShortcutsList] and [equityList] resolve with the envelope itself. *)
Theorem list_operations_envelope :
  unwraps_envelope "/notifications" notificationsList
  /\ (forall period,
        unwraps_envelope ("/analytics/basic?period=" +:+ period)
          (fetchBasicAnalyticsByPeriod period))
  /\ (forall filters,
        unwraps_envelope (analyticsFilteredUrl filters)
          (fetchBasicAnalyticsFiltered filters))
  /\ passes_envelope "/costs/categories" costCategoriesList
  /\ passes_envelope "/costs/shortcuts" costShortcutsList
  /\ passes_envelope "/analytics/equity" equityList.
Proof.
  assert (U : forall url, unwraps_envelope url
                (bind (apiCall url "GET" VUndefined)
                      (fun response => lift (get_prop response "result")))).
  { intros url w w' fields items Hcall Hresult.
    unfold bind. rewrite Hcall. unfold lift, get_prop.
    now rewrite Hresult. }
  repeat split; try (intros; apply U); intros w w' fields Hcall; exact Hcall.
Qed.

(** The address of the filtered analytics query, by the filters that are
    present and not empty. *)
Lemma analyticsFilteredUrl_shape (filters : AnalyticsFiltersQueryParams) :
  analyticsFilteredUrl filters =
  match nonempty (startDate filters), nonempty (endDate filters),
        nonempty (pattern filters) with
  | Some s, Some e, Some p =>
      "/analytics/basic?startDate=" +:+ s +:+ "&endDate=" +:+ e
        +:+ "&pattern=" +:+ p
  | Some s, Some e, None =>
      "/analytics/basic?startDate=" +:+ s +:+ "&endDate=" +:+ e
  | _, _, Some p => "/analytics/basic?pattern=" +:+ p
  | _, _, None => "/analytics/basic"
  end.
Proof.
  unfold analyticsFilteredUrl.
  destruct (nonempty (startDate filters)), (nonempty (endDate filters)),
    (nonempty (pattern filters)); try reflexivity.
  rewrite !append_assoc. reflexivity.
Qed.

End OperationProperties.

(* ===================================================================== *)
(** * Separators in the analytics address *)
(* ===================================================================== *)

Lemma count_question_append (a b : string) :
  count_question (a +:+ b) = (count_question a + count_question b)%nat.
Proof. induction a as [|c a IH]; simpl; [reflexivity | rewrite IH; lia]. Qed.

Lemma starts_append (a b : string) :
  starts_with_separator (a +:+ b) =
  match a with
  | EmptyString => starts_with_separator b
  | String _ _ => starts_with_separator a
  end.
Proof. destruct a; reflexivity. Qed.

Lemma ends_append (a b : string) :
  ends_with_separator (a +:+ b) =
  match b with
  | EmptyString => ends_with_separator a
  | String _ _ => ends_with_separator b
  end.
Proof.
  induction a as [|c a IH].
  - now destruct b.
  - change (String c a +:+ b) with (String c (a +:+ b)).
    destruct b as [|d b].
    + now rewrite append_nil_r.
    + destruct a as [|c' a]; [reflexivity|].
      change (ends_with_separator (String c' a +:+ String d b)
              = ends_with_separator (String d b)).
      exact IH.
Qed.

Lemma adjacent_append (a b : string) :
  adjacent_separators (a +:+ b) =
  adjacent_separators a
  || (ends_with_separator a && starts_with_separator b)
  || adjacent_separators b.
Proof.
  induction a as [|c a IH]; [reflexivity|].
  change (String c a +:+ b) with (String c (a +:+ b)).
  change (adjacent_separators (String c (a +:+ b)))
    with ((is_separator c && starts_with_separator (a +:+ b))
          || adjacent_separators (a +:+ b)).
  rewrite IH, starts_append.
  destruct a as [|c' a].
  - simpl. now destruct (is_separator c), (starts_with_separator b).
  - change (adjacent_separators (String c (String c' a)))
      with ((is_separator c && is_separator c')
            || adjacent_separators (String c' a)).
    change (ends_with_separator (String c (String c' a)))
      with (ends_with_separator (String c' a)).
    change (starts_with_separator (String c' a)) with (is_separator c').
    generalize (adjacent_separators (String c' a)),
      (ends_with_separator (String c' a)), (starts_with_separator b),
      (adjacent_separators b), (is_separator c), (is_separator c').
    intros [] [] [] [] [] []; reflexivity.
Qed.

(** A value without separators counts no ['?'], has no two separators in a
    row, and neither starts nor ends with one. *)
Lemma separator_free_facts (s : string) :
  separator_free s = true ->
  count_question s = 0%nat
  /\ adjacent_separators s = false
  /\ starts_with_separator s = false
  /\ ends_with_separator s = false.
Proof.
  induction s as [|c s IH]; [now repeat split|].
  simpl. unfold is_separator.
  destruct (Ascii.eqb c "?") eqn:Q, (Ascii.eqb c "&") eqn:A; simpl;
    try discriminate.
  intros Hs. destruct (IH Hs) as (-> & -> & Hstart & Hend).
  repeat split. destruct s; [reflexivity | exact Hend].
Qed.

Lemma nonempty_Some (x : option string) (s : string) :
  nonempty x = Some s -> x = Some s /\ s <> "".
Proof.
  destruct x as [t|]; simpl; [|discriminate].
  destruct (String.eqb_spec t ""); simpl; [discriminate|].
  intros [= ->]. now split.
Qed.

Lemma nonempty_plain (x : option string) (s : string) :
  nonempty x = Some s -> plain x = true ->
  exists c t, s = String c t /\ separator_free s = true.
Proof.
  intros Hx Hp. destruct (nonempty_Some _ _ Hx) as [-> Hne].
  destruct s as [|c t]; [now destruct Hne|]. now exists c, t.
Qed.

(** C7, as amended.  When the filter values that are present hold no ['?']
    and no ['&'], the address built from them has at most one ['?'], no two
    separators in a row and no separator at its end, whichever of the date
    range and the pattern are present; a pattern without the date range is
    the first parameter, ["?pattern="], and a pattern after the date range
    is appended with ["&"]. *)
Theorem analyticsFilteredUrl_separators
    (filters : AnalyticsFiltersQueryParams) :
  plain (startDate filters) = true ->
  plain (endDate filters) = true ->
  plain (pattern filters) = true ->
  well_separated (analyticsFilteredUrl filters)
  /\ analyticsFilteredUrl filters =
     match nonempty (startDate filters), nonempty (endDate filters),
           nonempty (pattern filters) with
     | Some s, Some e, Some p =>
         "/analytics/basic?startDate=" +:+ s +:+ "&endDate=" +:+ e
           +:+ "&pattern=" +:+ p
     | Some s, Some e, None =>
         "/analytics/basic?startDate=" +:+ s +:+ "&endDate=" +:+ e
     | _, _, Some p => "/analytics/basic?pattern=" +:+ p
     | _, _, None => "/analytics/basic"
     end.
Proof.
  intros Hs He Hp. split; [|apply analyticsFilteredUrl_shape].
  rewrite analyticsFilteredUrl_shape. unfold well_separated.
  destruct (nonempty (startDate filters)) as [s|] eqn:Es;
    destruct (nonempty (endDate filters)) as [e|] eqn:Ee;
    destruct (nonempty (pattern filters)) as [p|] eqn:Ep;
    repeat match goal with
      | E : nonempty ?x = Some ?v, P : plain ?x = true |- _ =>
          let c := fresh "c" in
          let t := fresh "t" in
          let F := fresh "F" in
          destruct (nonempty_plain _ _ E P) as (c & t & -> & F);
          apply separator_free_facts in F;
          destruct F as (? & ? & ? & ?);
          clear E
      end;
    rewrite ?count_question_append, ?adjacent_append, ?ends_append,
      ?starts_append;
    repeat match goal with
      | E : _ = _ |- _ => rewrite E
      end;
    simpl; repeat split; lia.
Qed.

(** C7 as stated fails: a pattern ending in a question mark gives an
    address with two ['?'], the second one at the end. *)
Lemma analyticsFilteredUrl_question_in_pattern :
  let filters :=
    {| startDate := None; endDate := None; pattern := Some "why?" |} in
  analyticsFilteredUrl filters = "/analytics/basic?pattern=why?"
  /\ ~ well_separated (analyticsFilteredUrl filters).
Proof.
  split; [reflexivity|].
  intros (Hcount & _ & _). vm_compute in Hcount. lia.
Qed.

(** C10, as amended.  When exactly one of [startDate] and [endDate] is
    given, the date given is dropped: the address is the one built without
    any date, ["/analytics/basic"] followed by ["?pattern=<pattern>"] when a
    pattern is present, and that address, after the base URL, is the one
    requested.  The names [startDate] and [endDate] occur in it exactly when
    they occur in the pattern's own text, so neither appears when the
    pattern is absent or free of them; the whole call runs as the call
    without the dates does. *)
Theorem fetchBasicAnalyticsFiltered_half_range `{Env}
    (filters : AnalyticsFiltersQueryParams) (w : World) :
  exactly_one_date filters = true ->
  let url := analyticsFilteredUrl filters in
  let given := default "" (nonempty (pattern filters)) in
  url = analyticsFilteredUrl (without_dates filters)
  /\ url = "/analytics/basic" +:+
           match nonempty (pattern filters) with
           | Some p => "?pattern=" +:+ p
           | None => ""
           end
  /\ occurs "startDate" url = occurs "startDate" given
  /\ occurs "endDate" url = occurs "endDate" given
  /\ (occurs "startDate" given = false -> occurs "endDate" given = false ->
      occurs "startDate" url = false /\ occurs "endDate" url = false)
  /\ fetchBasicAnalyticsFiltered filters
     = fetchBasicAnalyticsFiltered (without_dates filters)
  /\ exists req rest,
       log (fetchBasicAnalyticsFiltered filters w).1
       = log w ++ EvFetch req :: rest
       /\ req_url req = BASE_URL +:+ url
       /\ req_method req = "GET"
       /\ req_body req = None.
Proof.
  intros Hone url given.
  assert (Hurl : url = "/analytics/basic" +:+
                       match nonempty (pattern filters) with
                       | Some p => "?pattern=" +:+ p
                       | None => ""
                       end).
  { subst url. rewrite analyticsFilteredUrl_shape.
    destruct filters as [[s|] [e|] p]; try discriminate Hone;
      cbn [startDate endDate pattern];
      change (nonempty None) with (@None string);
      repeat match goal with
        | |- context [match nonempty ?x with _ => _ end] =>
            destruct (nonempty x)
        end; reflexivity. }
  assert (Hsame : url = analyticsFilteredUrl (without_dates filters)).
  { rewrite Hurl, analyticsFilteredUrl_shape. simpl.
    now destruct (nonempty (pattern filters)). }
  assert (Hs : occurs "startDate" url = occurs "startDate" given).
  { rewrite Hurl. subst given.
    destruct (nonempty (pattern filters)); reflexivity. }
  assert (He : occurs "endDate" url = occurs "endDate" given).
  { rewrite Hurl. subst given.
    destruct (nonempty (pattern filters)); reflexivity. }
  split; [exact Hsame|]. split; [exact Hurl|].
  split; [exact Hs|]. split; [exact He|].
  split; [intros Fs Fe; now rewrite Hs, He|].
  split.
  - unfold fetchBasicAnalyticsFiltered. fold url. now rewrite Hsame.
  - destruct (apiCall_sends url "GET" VUndefined w) as [rest Hrest].
    exists (apiRequest url "GET" VUndefined (identity (persistent w))), rest.
    split; [|repeat split].
    unfold fetchBasicAnalyticsFiltered. fold url.
    now rewrite bind_lift_log.
Qed.

(** C10 as stated fails: dates written into the pattern are in the address
    although the date range itself was dropped. *)
Lemma analyticsFilteredUrl_dates_in_pattern :
  let filters :=
    {| startDate := Some "2024-01-01"; endDate := None;
       pattern := Some "x&startDate=2024-01-01&endDate=2024-01-31" |} in
  exactly_one_date filters = true
  /\ analyticsFilteredUrl filters
     = "/analytics/basic?pattern=x&startDate=2024-01-01&endDate=2024-01-31"
  /\ occurs "startDate" (analyticsFilteredUrl filters) = true
  /\ occurs "endDate" (analyticsFilteredUrl filters) = true.
Proof. repeat split. Qed.

(** C8 as stated fails: [costCategoriesList] resolves with the envelope it
    received, not with the sequence inside it. *)
Lemma costCategoriesList_keeps_envelope :
  (@costCategoriesList categories_env signed_out).2 = Ok categories
  /\ (@costCategoriesList categories_env signed_out).2
     <> Ok (VArr [VStr "Food"])
  /\ ~ @unwraps_envelope categories_env "/costs/categories"
         (@costCategoriesList categories_env).
Proof.
  split; [reflexivity|]. split; [discriminate|].
  intros U.
  pose proof (U signed_out _ [("result", VArr [VStr "Food"])] [VStr "Food"]
                eq_refl eq_refl) as Hbare.
  apply (f_equal snd) in Hbare. discriminate Hbare.
Qed.

(* ===================================================================== *)
(** * The theorems at work on concrete exchanges *)
(* ===================================================================== *)

(** C1 on a page of two items asked for at context 5: the context handed
    back is 7, although the server said 99. *)
Lemma transactionsList_context_witness :
  (@transactionsList page_env None None None None None None (Some 5) None
     (signed_in "tok")).2
  = Ok (VObj [("context", VNum 7);
              ("left", VNum 40);
              ("result", VArr [VStr "t6"; VStr "t7"])]).
Proof.
  rewrite (@transactionsList_context page_env None None None None None None
             (Some 5) None (signed_in "tok")
             (@apiCall page_env "/transactions?context=5&limit=15" "GET"
                VUndefined (signed_in "tok")).1
             [("result", VArr [VStr "t6"; VStr "t7"]);
              ("left", VNum 40);
              ("context", VNum 99)]
             [VStr "t6"; VStr "t7"] (VNum 40)
             eq_refl eq_refl eq_refl eq_refl eq_refl).
  reflexivity.
Defined.



(** C5 on a 204 whose body would not even decode. *)
Lemma apiCall_204_null_witness :
  (@apiCall (fixed_env 204 "" None) "/costs/7" "DELETE" VUndefined
     (signed_in "tok")).2 = Ok VNull.
Proof.
  rewrite (@apiCall_204_null (fixed_env 204 "" None) "/costs/7" "DELETE"
             VUndefined (signed_in "tok")
             {| status := 204; body_text := "" |} eq_refl eq_refl).
  reflexivity.
Defined.

(** C7 with the date range and the pattern both present. *)
Lemma analyticsFilteredUrl_separators_witness :
  well_separated
    "/analytics/basic?startDate=2024-01-01&endDate=2024-01-31&pattern=rent".
Proof.
  exact (proj1 (analyticsFilteredUrl_separators
                  {| startDate := Some "2024-01-01";
                     endDate := Some "2024-01-31";
                     pattern := Some "rent" |}
                  eq_refl eq_refl eq_refl)).
Defined.

(** C8 on the notifications: the bare sequence comes back. *)
Lemma list_operations_envelope_witness :
  (@notificationsList categories_env signed_out).2
  = Ok (VArr [VStr "Food"]).
Proof.
  destruct (@list_operations_envelope categories_env) as [U _].
  rewrite (U signed_out
             (@apiCall categories_env "/notifications" "GET" VUndefined
                signed_out).1
             [("result", VArr [VStr "Food"])] [VStr "Food"]
             eq_refl eq_refl).
  reflexivity.
Defined.

(** C10 with a start date and no end date. *)
Lemma fetchBasicAnalyticsFiltered_half_range_witness :
  analyticsFilteredUrl
    {| startDate := Some "2024-01-01"; endDate := None;
       pattern := Some "rent" |}
  = "/analytics/basic?pattern=rent".
Proof.
  exact (proj1 (proj2 (@fetchBasicAnalyticsFiltered_half_range
                         categories_env
                         {| startDate := Some "2024-01-01"; endDate := None;
                            pattern := Some "rent" |}
                         signed_out eq_refl))).
Defined.

(* ===================================================================== *)
(** * Every outcome of the dispatcher *)
(* ===================================================================== *)

Section DispatcherOutcomes.
Context `{Env}.

(** The result of [apiCall], case by case on what the transport answers. *)
Lemma apiCall_outcome (url method : string) (body : value) (w : World) :
  let req := apiRequest url method body (identity (persistent w)) in
  apiCall url method body w =
  match network req with
  | None => (sent w req, Throw NetworkError)
  | Some response =>
      if ok response then
        if status response =? 204 then (sent w req, Ok VNull)
        else
          ({| persistent := persistent w;
              log := log w ++ [EvFetch req; EvJson] |},
           match JSON_parse (body_text response) with
           | Some v => Ok v
           | None => Throw SyntaxError
           end)
      else
        ({| persistent :=
              if status response =? 401 then cleared else persistent w;
            log := log w ++ EvFetch req :: EvText ::
                     (if status response =? 401
                      then [EvSetIdentity None; EvFlush] else []) |},
         Throw (Error ("API error: " +:+ pretty (status response)
                       +:+ " - " +:+ body_text response)))
  end.
Proof.
  intros req. rewrite apiCall_cases. fold req.
  destruct (network req) as [response|]; [|reflexivity].
  destruct (ok response); simpl.
  - destruct (status response =? 204); [reflexivity|].
    unfold response_json, bind, emit, ret, throw, sent; simpl.
    rewrite <- app_assoc.
    destruct (JSON_parse (body_text response)); reflexivity.
  - unfold response_text, set_identity, flush, bind, emit, ret, throw, sent.
    destruct (status response =? 401); simpl; rewrite <- !app_assoc;
      reflexivity.
Qed.

(** X1.  A success status other than 204 whose body decodes: the call
    resolves with the decoded value, the session store is untouched and the
    log gains the request and one JSON read. *)
Theorem apiCall_success_decodes
    (url method : string) (body : value) (w : World) (response : Response)
    (v : value) :
  let req := apiRequest url method body (identity (persistent w)) in
  network req = Some response ->
  ok response = true ->
  status response <> 204 ->
  JSON_parse (body_text response) = Some v ->
  apiCall url method body w =
  ({| persistent := persistent w; log := log w ++ [EvFetch req; EvJson] |},
   Ok v).
Proof.
  intros req Hnet Hok Hst Hparse. rewrite apiCall_outcome. fold req.
  apply Z.eqb_neq in Hst. now rewrite Hnet, Hok, Hst, Hparse.
Qed.

(** X2.  A success status other than 204 whose body [JSON.parse] refuses:
    the call rejects with the decoding error, and the session store is
    untouched. *)
Theorem apiCall_malformed_body
    (url method : string) (body : value) (w : World) (response : Response) :
  let req := apiRequest url method body (identity (persistent w)) in
  network req = Some response ->
  ok response = true ->
  status response <> 204 ->
  JSON_parse (body_text response) = None ->
  apiCall url method body w =
  ({| persistent := persistent w; log := log w ++ [EvFetch req; EvJson] |},
   Throw SyntaxError).
Proof.
  intros req Hnet Hok Hst Hparse. rewrite apiCall_outcome. fold req.
  apply Z.eqb_neq in Hst. now rewrite Hnet, Hok, Hst, Hparse.
Qed.

(** X3.  When the exchange does not complete the call rejects with the
    transport error, not with an API error; nothing is read, and the
    session store is untouched. *)
Theorem apiCall_network_failure
    (url method : string) (body : value) (w : World) :
  let req := apiRequest url method body (identity (persistent w)) in
  network req = None ->
  apiCall url method body w =
  ({| persistent := persistent w; log := log w ++ [EvFetch req] |},
   Throw NetworkError).
Proof.
  intros req Hnet. rewrite apiCall_outcome. fold req. now rewrite Hnet.
Qed.

(** X5.  A call that resolves got a success response: the value is [null]
    for status 204 and the decoded body otherwise, and the session store
    is the one the call started with. *)
Theorem apiCall_resolves_inversion
    (url method : string) (body : value) (w w' : World) (v : value) :
  apiCall url method body w = (w', Ok v) ->
  exists response,
    network (apiRequest url method body (identity (persistent w)))
    = Some response
    /\ ok response = true
    /\ (if status response =? 204 then v = VNull
        else JSON_parse (body_text response) = Some v)
    /\ persistent w' = persistent w.
Proof.
  rewrite apiCall_outcome. cbv zeta.
  destruct (network _) as [response|]; [|discriminate].
  destruct (ok response) eqn:Hok; [|discriminate].
  destruct (status response =? 204) eqn:Hst.
  - intros [= <- <-]. exists response. now rewrite Hst.
  - destruct (JSON_parse _) as [v'|] eqn:Hparse; [|discriminate].
    intros [= <- <-]. exists response. now rewrite Hst.
Qed.


End DispatcherOutcomes.

(* ===================================================================== *)
(** * Properties of every operation *)
(* ===================================================================== *)

Section EveryOperation.
Context `{Env}.

(** Each operation is one call of the dispatcher followed by a step that
    only computes on the value received; what that step does with [null]
    and with an object that has no [result], by the kind of operation. *)
Lemma perform_shape (op : Operation) :
  exists (url method : string) (body : value) (k : value -> Result value),
    (forall w,
       perform op w
       = bind (apiCall url method body) (fun v => lift (k v)) w)
    /\ (is_delete op = true ->
        method = "DELETE" /\ body = VUndefined
        /\ forall v, k v = Ok VUndefined)
    /\ (reads_result op = true ->
        k VNull = Throw TypeError
        /\ forall fields,
             assoc "result" fields = None ->
             k (VObj fields)
             = if reads_length op then Throw TypeError else Ok VUndefined)
    /\ (is_delete op = false -> reads_result op = false -> forall v, k v = Ok v)
    /\ (if truthy body then Some (JSON_stringify body) else None)
       = match op_payload op with
         | Some b => if truthy b then Some (JSON_stringify b) else None
         | None => None
         end.
Proof.
  destruct op;
    cbn [perform is_delete reads_result reads_length op_payload];
    unfold userAuth, transactionsList, costCategoriesList, costCreate,
      costRetrieve, costUpdate, costDelete, costShortcutCreate,
      costShortcutsList, costShortcutDelete, costShortcutApply, incomeCreate,
      incomeRetrieve, incomeUpdate, incomeDelete, exchangeCreate,
      exchangeRetrieve, exchangeDelete, notificationsList, equityList,
      fetchBasicAnalyticsByPeriod, fetchBasicAnalyticsFiltered,
      configurationUpdate;
    match goal with
    | |- context [apiCall ?u ?m ?b] => exists u, m, b
    end;
    first
      [ (* the value is handed on *)
        exists Ok; split;
        [ intros w; unfold bind, lift;
          destruct (apiCall _ _ _ w) as [? [?|?]]; reflexivity
        | repeat split; intros; try discriminate;
          first [ reflexivity
                | match goal with
                  | |- context [nullish_undefined ?b] => now destruct b
                  end ] ]
      | (* the value is dropped *)
        exists (fun _ => Ok VUndefined); split;
        [ reflexivity
        | repeat split; intros; try discriminate; reflexivity ]
      | (* the envelope is unwrapped *)
        exists (fun response => get_prop response "result"); split;
        [ reflexivity
        | repeat split; intros; try discriminate; try reflexivity;
          simpl;
          match goal with E : assoc _ _ = None |- _ => now rewrite E end ]
      | (* the page is rebuilt *)
        idtac ].
  exists
    (fun results =>
       match get_prop results "result" with
       | Ok items =>
           match get_prop items "length" with
           | Ok n =>
               match get_prop results "left" with
               | Ok remaining =>
                   Ok (VObj [("context", js_add (default 0 context) n);
                             ("left", remaining); ("result", items)])
               | Throw e => Throw e
               end
           | Throw e => Throw e
           end
       | Throw e => Throw e
       end).
  split.
  - intros w. unfold bind, lift, ret.
    destruct (apiCall _ _ _ w) as [w' [results|e]]; [|reflexivity].
    destruct (get_prop results "result") as [items|]; [|reflexivity].
    destruct (get_prop items "length"); [|reflexivity].
    destruct (get_prop results "left"); reflexivity.
  - repeat split; intros; try discriminate; try reflexivity.
    simpl. match goal with E : assoc _ _ = None |- _ => now rewrite E end.
Qed.

Lemma perform_factor (op : Operation) :
  exists (url method : string) (body : value) (k : value -> Result value),
    forall w,
      perform op w
      = bind (apiCall url method body) (fun v => lift (k v)) w.
Proof.
  destruct (perform_shape op) as (url & method & body & k & Hk & _).
  now exists url, method, body, k.
Qed.

(** The world an operation leaves is the world its dispatcher call left. *)
Lemma bind_lift_world {A} (m : M value) (k : value -> Result A) (w : World) :
  (bind m (fun v => lift (k v)) w).1 = (m w).1.
Proof. unfold bind, lift. now destruct (m w) as [w' [v|e]]. Qed.

(** A rejection of the dispatcher is the rejection of the operation. *)
Lemma bind_lift_throw {A} (m : M value) (k : value -> Result A) (w : World)
    (e : exn) :
  (m w).2 = Throw e -> (bind m (fun v => lift (k v)) w).2 = Throw e.
Proof. unfold bind, lift. destruct (m w) as [w' [v|e']]; simpl; congruence. Qed.

(** The request an operation logged first is the one its dispatcher call
    built. *)
Lemma first_request (l : list Event) (r r' : Request) (rest rest' : list Event) :
  l ++ EvFetch r :: rest = l ++ EvFetch r' :: rest' -> r = r' /\ rest = rest'.
Proof. intros E. apply app_inv_head in E. now injection E. Qed.

(** X7.  Every operation sends exactly one request: it is the first thing
    the operation does, it goes to an address under the base URL with the
    JSON content type, and nothing after it in the log is a request. *)
Theorem perform_one_request (op : Operation) (w : World) :
  exists req rest path,
    log (perform op w).1 = log w ++ EvFetch req :: rest
    /\ forallb (fun e => negb (is_fetch e)) rest = true
    /\ req_url req = BASE_URL +:+ path
    /\ req_headers req !! "Content-Type" = Some "application/json".
Proof.
  destruct (perform_factor op) as (url & method & body & k & ->).
  rewrite bind_lift_world, apiCall_outcome. cbv zeta.
  set (req := apiRequest url method body (identity (persistent w))).
  assert (Hct : req_headers req !! "Content-Type" = Some "application/json").
  { subst req. unfold apiRequest; simpl. destruct (bearer _); simpl.
    - rewrite lookup_insert_ne by discriminate. now apply lookup_singleton_eq.
    - now apply lookup_singleton_eq. }
  destruct (network req) as [response|].
  - destruct (ok response).
    + destruct (status response =? 204).
      * now exists req, [], url.
      * now exists req, [EvJson], url.
    + destruct (status response =? 401).
      * now exists req, [EvText; EvSetIdentity None; EvFlush], url.
      * now exists req, [EvText], url.
  - now exists req, [], url.
Qed.

(** X8.  An operation changes the session store only when its request was
    answered 401, and then it clears it; in every other case the store is
    the one the operation started with. *)
Theorem perform_store_only_on_401 (op : Operation) (w : World) :
  persistent (perform op w).1 = persistent w
  \/ (persistent (perform op w).1 = cleared
      /\ exists req rest response,
           log (perform op w).1 = log w ++ EvFetch req :: rest
           /\ network req = Some response
           /\ status response = 401).
Proof.
  destruct (perform_factor op) as (url & method & body & k & ->).
  rewrite bind_lift_world, apiCall_outcome. cbv zeta.
  set (req := apiRequest url method body (identity (persistent w))).
  destruct (network req) as [response|] eqn:Hnet; [|now left].
  destruct (ok response).
  - destruct (status response =? 204); now left.
  - destruct (status response =? 401) eqn:Hst; [|now left].
    right. split; [reflexivity|].
    exists req, [EvText; EvSetIdentity None; EvFlush], response.
    repeat split; [exact Hnet | now apply Z.eqb_eq].
Qed.


(** X10.  Whatever the operation, when the exchange does not complete it
    rejects with the transport error and leaves the session store alone. *)
Theorem perform_network_failure
    (op : Operation) (w : World) (req : Request) (rest : list Event) :
  log (perform op w).1 = log w ++ EvFetch req :: rest ->
  network req = None ->
  (perform op w).2 = Throw NetworkError
  /\ persistent (perform op w).1 = persistent w
  /\ rest = [].
Proof.
  destruct (perform_factor op) as (url & method & body & k & ->).
  rewrite bind_lift_world. intros Hlog Hnet.
  destruct (apiCall_sends url method body w) as [rest' Hsent].
  pose proof (apiCall_outcome url method body w) as Hout. cbv zeta in Hout.
  rewrite Hsent in Hlog. apply first_request in Hlog as [<- <-].
  rewrite Hnet in Hout. split; [|split].
  - apply bind_lift_throw. now rewrite Hout.
  - now rewrite Hout.
  - rewrite Hout in Hsent. simpl in Hsent.
    apply app_inv_head in Hsent. now injection Hsent.
Qed.

(** The request found first in the log of an operation is the request of
    its dispatcher call. *)
Lemma perform_by_request (op : Operation) (w : World) (req : Request)
    (rest : list Event) :
  log (perform op w).1 = log w ++ EvFetch req :: rest ->
  exists (url method : string) (body : value) (k : value -> Result value),
    perform op w = bind (apiCall url method body) (fun v => lift (k v)) w
    /\ req = apiRequest url method body (identity (persistent w))
    /\ (is_delete op = true ->
        method = "DELETE" /\ body = VUndefined
        /\ forall v, k v = Ok VUndefined)
    /\ (reads_result op = true ->
        k VNull = Throw TypeError
        /\ forall fields,
             assoc "result" fields = None ->
             k (VObj fields)
             = if reads_length op then Throw TypeError else Ok VUndefined)
    /\ (is_delete op = false -> reads_result op = false -> forall v, k v = Ok v)
    /\ req_body req
       = match op_payload op with
         | Some b => if truthy b then Some (JSON_stringify b) else None
         | None => None
         end.
Proof.
  destruct (perform_shape op) as (url & method & body & k & Hk & Hrest).
  rewrite Hk, bind_lift_world. intros Hlog.
  destruct (apiCall_sends url method body w) as [rest' Hsent].
  rewrite Hsent in Hlog. apply first_request in Hlog as [<- _].
  now exists url, method, body, k.
Qed.

(** X11.  A delete sends a [DELETE] request without a body and, on a
    success answer, resolves with [undefined] whatever the body decodes to;
    but a success other than 204 whose body does not decode makes the
    delete reject with the decoding error. *)
Theorem delete_outcome
    (op : Operation) (w : World) (req : Request) (rest : list Event)
    (response : Response) :
  is_delete op = true ->
  log (perform op w).1 = log w ++ EvFetch req :: rest ->
  network req = Some response ->
  ok response = true ->
  req_method req = "DELETE"
  /\ req_body req = None
  /\ (perform op w).2
     = if status response =? 204 then Ok VUndefined
       else match JSON_parse (body_text response) with
            | Some _ => Ok VUndefined
            | None => Throw SyntaxError
            end.
Proof.
  intros Hdel Hlog Hnet Hok.
  destruct (perform_by_request op w req rest Hlog)
    as (url & method & body & k & -> & -> & Hd & _).
  destruct (Hd Hdel) as (-> & -> & Hk).
  split; [reflexivity|]. split; [reflexivity|].
  unfold bind. rewrite apiCall_outcome. cbv zeta. rewrite Hnet, Hok.
  destruct (status response =? 204); [now rewrite Hk|].
  destruct (JSON_parse (body_text response)); [now rewrite Hk | reflexivity].
Qed.

(** X12.  On an answer of status 204 the dispatcher resolves with [null]:
    an operation that reads [.result] off it rejects with a type error, a
    delete resolves with [undefined], every other operation resolves with
    [null]. *)
Theorem perform_on_204
    (op : Operation) (w : World) (req : Request) (rest : list Event)
    (response : Response) :
  log (perform op w).1 = log w ++ EvFetch req :: rest ->
  network req = Some response ->
  status response = 204 ->
  (perform op w).2
  = if reads_result op then Throw TypeError
    else if is_delete op then Ok VUndefined
    else Ok VNull.
Proof.
  intros Hlog Hnet Hst.
  destruct (perform_by_request op w req rest Hlog)
    as (url & method & body & k & -> & -> & Hd & Hr & Hp & _).
  unfold bind. rewrite apiCall_outcome. cbv zeta. rewrite Hnet.
  unfold ok. rewrite Hst. simpl. unfold lift. simpl.
  destruct (reads_result op) eqn:Er.
  - now destruct (Hr eq_refl) as [-> _].
  - destruct (is_delete op) eqn:Ed.
    + now destruct (Hd eq_refl) as (_ & _ & ->).
    + now rewrite Hp.
Qed.

(** X13.  When the decoded answer is an object without a [result] field,
    the operations that unwrap the envelope resolve with [undefined], and
    [transactionsList], which reads the length of the result, rejects with
    a type error. *)
Theorem perform_missing_result
    (op : Operation) (w : World) (req : Request) (rest : list Event)
    (response : Response) (fields : list (string * value)) :
  reads_result op = true ->
  log (perform op w).1 = log w ++ EvFetch req :: rest ->
  network req = Some response ->
  ok response = true ->
  status response <> 204 ->
  JSON_parse (body_text response) = Some (VObj fields) ->
  assoc "result" fields = None ->
  (perform op w).2
  = if reads_length op then Throw TypeError else Ok VUndefined.
Proof.
  intros Hreads Hlog Hnet Hok Hst Hparse Hmissing.
  destruct (perform_by_request op w req rest Hlog)
    as (url & method & body & k & -> & -> & _ & Hr & _).
  destruct (Hr Hreads) as [_ Hk].
  unfold bind. rewrite apiCall_outcome. cbv zeta.
  apply Z.eqb_neq in Hst. rewrite Hnet, Hok, Hst, Hparse.
  unfold lift. simpl. now apply Hk.
Qed.

End EveryOperation.

(* ===================================================================== *)
(** * Numbers in addresses *)
(* ===================================================================== *)

Lemma pretty_N_go_separator_free (x : N) (s : string) :
  separator_free s = true -> separator_free (pretty_N_go x s) = true.
Proof.
  revert s. induction (N.lt_wf_0 x) as [x _ IH]. intros s Hs.
  destruct (N.eq_dec x 0%N) as [->|Hx].
  - now rewrite pretty_N_go_0.
  - rewrite pretty_N_go_step by lia.
    apply IH; [apply N.div_lt; lia|].
    simpl. rewrite Hs. unfold pretty_N_char.
    repeat case_match; reflexivity.
Qed.

(** The decimal text of a number holds no separator. *)
Lemma pretty_Z_separator_free (z : Z) : separator_free (pretty z) = true.
Proof.
  assert (HN : forall n : N, separator_free (pretty n) = true).
  { intros n. unfold pretty, pretty_N. case_decide; [reflexivity|].
    now apply pretty_N_go_separator_free. }
  destruct z as [|p|p]; [reflexivity | apply HN |].
  change (separator_free (String "-" (pretty (Npos p))) = true).
  simpl. apply HN.
Qed.

(** Two texts that agree, each a separator-free head followed by nothing
    or by a separator, have the same head and the same tail. *)
Lemma head_before_separator (a b r r' : string) :
  separator_free a = true -> separator_free b = true ->
  (r = "" \/ starts_with_separator r = true) ->
  (r' = "" \/ starts_with_separator r' = true) ->
  a +:+ r = b +:+ r' -> a = b /\ r = r'.
Proof.
  revert b. induction a as [|c a IH]; intros b Ha Hb Hr Hr' E.
  - destruct b as [|d b]; [now split|]. exfalso.
    simpl in E. subst r. simpl in Hb. apply andb_true_iff in Hb as [Hd _].
    destruct Hr as [Hr|Hr]; [discriminate|]. simpl in Hr.
    now rewrite Hr in Hd.
  - simpl in Ha. apply andb_true_iff in Ha as [Hc Ha].
    destruct b as [|d b].
    + exfalso. simpl in E. subst r'.
      destruct Hr' as [Hr'|Hr']; [discriminate|]. simpl in Hr'.
      now rewrite Hr' in Hc.
    + simpl in Hb. apply andb_true_iff in Hb as [_ Hb].
      simpl in E. injection E as -> E.
      destruct (IH b Ha Hb Hr Hr' E) as [-> ->]. now split.
Qed.

(* ===================================================================== *)
(** * The address of a page of transactions *)
(* ===================================================================== *)

(** The filters' share of the address. *)
Lemma transactionsUrl_particles
    (currencyId costCategoryId : option Z)
    (period startDate endDate operation : option string)
    (context limit : Z) :
  transactionsUrl currencyId costCategoryId period startDate endDate
    operation context limit
  = "/transactions?context=" +:+ pretty context
      +:+ "&limit=" +:+ pretty limit
      +:+ (query_particle "currencyId" (pretty <$> currencyId)
           +:+ query_particle "costCategoryId" (pretty <$> costCategoryId)
           +:+ query_particle "period" period
           +:+ query_particle "startDate" startDate
           +:+ query_particle "endDate" endDate
           +:+ query_particle "operation" operation).
Proof.
  unfold transactionsUrl. rewrite !concat_push_if.
  change (String.concat "" [?x]) with x.
  rewrite !append_assoc.
  destruct currencyId, costCategoryId, period, startDate, endDate,
    operation; reflexivity.
Qed.

(** A stretch of an address with no ['?'], no two separators in a row and
    no separator at its end. *)
Lemma quiet_append (a b : string) :
  (count_question a = 0%nat /\ adjacent_separators a = false
   /\ ends_with_separator a = false) ->
  (count_question b = 0%nat /\ adjacent_separators b = false
   /\ ends_with_separator b = false) ->
  count_question (a +:+ b) = 0%nat
  /\ adjacent_separators (a +:+ b) = false
  /\ ends_with_separator (a +:+ b) = false.
Proof.
  intros (Ca & Aa & Ea) (Cb & Ab & Eb).
  rewrite count_question_append, adjacent_append, ends_append, Ca, Cb, Aa,
    Ab, Ea. simpl. repeat split. now destruct b.
Qed.

Lemma quiet_value (s : string) :
  separator_free s = true ->
  count_question s = 0%nat /\ adjacent_separators s = false
  /\ ends_with_separator s = false.
Proof. intros Hs. now destruct (separator_free_facts s Hs) as (? & ? & _ & ?). Qed.

Lemma quiet_particle (key : string) (v : option string) :
  separator_free key = true -> key <> "" -> plain v = true ->
  let p := query_particle key v in
  count_question p = 0%nat /\ adjacent_separators p = false
  /\ ends_with_separator p = false.
Proof.
  intros Hkey Hne Hv. destruct v as [v|]; [|now repeat split]. simpl.
  destruct key as [|c key]; [now destruct Hne|].
  destruct (separator_free_facts _ Hkey) as (Ck & Ak & Sk & Ek).
  destruct (separator_free_facts _ Hv) as (Cv & Av & Sv & Ev).
  change ("&" +:+ String c key +:+ "=" +:+ v)
    with (String "&" (String c key +:+ String "=" v)).
  assert (Q : count_question (String c key +:+ String "=" v) = 0%nat
              /\ adjacent_separators (String c key +:+ String "=" v) = false
              /\ ends_with_separator (String c key +:+ String "=" v) = false).
  { apply quiet_append; [now repeat split|].
    change (String "=" v) with ("=" +:+ v).
    apply quiet_append; now repeat split. }
  destruct Q as (Cq & Aq & Eq).
  simpl in Sk. cbn [count_question adjacent_separators starts_with_separator].
  change (String c key +:+ String "=" v)
    with (String c (key +:+ String "=" v)) in *.
  cbn [starts_with_separator]. rewrite Sk, Cq, Aq. simpl.
  repeat split. exact Eq.
Qed.

(** X14.  When the text filters hold no ['?'] and no ['&'] (they may be
    empty), the address of a page of transactions has exactly one ['?'],
    no two separators in a row and no separator at its end, whichever
    filters are given. *)
Theorem transactionsUrl_separators
    (currencyId costCategoryId : option Z)
    (period startDate endDate operation : option string)
    (context limit : Z) :
  plain period = true -> plain startDate = true ->
  plain endDate = true -> plain operation = true ->
  let url :=
    transactionsUrl currencyId costCategoryId period startDate endDate
      operation context limit in
  count_question url = 1%nat
  /\ adjacent_separators url = false
  /\ ends_with_separator url = false.
Proof.
  intros Hp Hs He Ho url. subst url. rewrite transactionsUrl_particles.
  assert (Hnum : forall z : option Z, plain (pretty <$> z) = true).
  { intros [z|]; [apply pretty_Z_separator_free | reflexivity]. }
  assert (Q : let r :=
                pretty context +:+ "&limit=" +:+ pretty limit
                  +:+ (query_particle "currencyId" (pretty <$> currencyId)
                       +:+ query_particle "costCategoryId"
                             (pretty <$> costCategoryId)
                       +:+ query_particle "period" period
                       +:+ query_particle "startDate" startDate
                       +:+ query_particle "endDate" endDate
                       +:+ query_particle "operation" operation) in
              count_question r = 0%nat /\ adjacent_separators r = false
              /\ ends_with_separator r = false).
  { repeat first
      [ apply quiet_append
      | apply quiet_value, pretty_Z_separator_free
      | apply quiet_particle; [reflexivity | discriminate | auto]
      | now repeat split ]. }
  cbv zeta in Q. destruct Q as (Cq & Aq & Eq).
  set (r := pretty context +:+ _) in *.
  rewrite count_question_append, adjacent_append, ends_append, Cq, Aq.
  simpl. repeat split. destruct r; [reflexivity | exact Eq].
Qed.

Lemma particle_starts (key : string) (v : option string) :
  query_particle key v = ""
  \/ starts_with_separator (query_particle key v) = true.
Proof. destruct v; [now right | now left]. Qed.

Lemma append_starts (a b : string) :
  (a = "" \/ starts_with_separator a = true) ->
  (b = "" \/ starts_with_separator b = true) ->
  a +:+ b = "" \/ starts_with_separator (a +:+ b) = true.
Proof.
  intros [->|Ha] Hb; [exact Hb|]. right.
  rewrite starts_append. destruct a; [discriminate | exact Ha].
Qed.

(** X15.  For numbers of magnitude at most 2^53, the address of a page
    determines its context and its limit: two calls whose contexts or
    limits differ never ask for the same address, whatever their
    filters. *)
Theorem transactionsUrl_page_inj
    (currencyId costCategoryId currencyId' costCategoryId' : option Z)
    (period startDate endDate operation : option string)
    (period' startDate' endDate' operation' : option string)
    (context limit context' limit' : Z) :
  exact context = true -> exact limit = true ->
  exact context' = true -> exact limit' = true ->
  exact_opt currencyId = true -> exact_opt costCategoryId = true ->
  exact_opt currencyId' = true -> exact_opt costCategoryId' = true ->
  transactionsUrl currencyId costCategoryId period startDate endDate
    operation context limit
  = transactionsUrl currencyId' costCategoryId' period' startDate' endDate'
      operation' context' limit' ->
  context = context' /\ limit = limit'.
Proof.
  intros _ _ _ _ _ _ _ _.
  rewrite !transactionsUrl_particles. intros E.
  apply (inj (String.append "/transactions?context=")) in E.
  apply head_before_separator in E as [Hc E];
    try apply pretty_Z_separator_free; try now right.
  apply (inj pretty) in Hc. split; [exact Hc|].
  apply (inj (String.append "&limit=")) in E.
  apply head_before_separator in E as [Hl _];
    try apply pretty_Z_separator_free;
    try (repeat apply append_starts; apply particle_starts).
  now apply (inj pretty) in Hl.
Qed.

Section Pagination.
Context `{Env}.

(** X16.  Feeding the context of one page back asks for the next offset,
    as long as the offsets stay within magnitude 2^53: when the call at
    context [c0] brings [items1], the page it resolves with carries the
    context [c0 + length items1]; the call made with that context asks for
    the address at that offset and, when it brings [items2], resolves with
    the context [c0 + length items1 + length items2]. *)
Theorem transactionsList_next_page
    (currencyId costCategoryId : option Z)
    (period startDate endDate operation : option string)
    (c0 : Z) (limit : option Z) (w w1 w2 : World)
    (fields1 fields2 : list (string * value)) (items1 items2 : list value)
    (left1 left2 : value) :
  let url c :=
    transactionsUrl currencyId costCategoryId period startDate endDate
      operation c (default 15 limit) in
  let c1 := c0 + Z.of_nat (length items1) in
  exact c0 = true ->
  exact (c1 + Z.of_nat (length items2)) = true ->
  apiCall (url c0) "GET" VUndefined w = (w1, Ok (VObj fields1)) ->
  assoc "result" fields1 = Some (VArr items1) ->
  assoc "left" fields1 = Some left1 ->
  apiCall (url c1) "GET" VUndefined w1 = (w2, Ok (VObj fields2)) ->
  assoc "result" fields2 = Some (VArr items2) ->
  assoc "left" fields2 = Some left2 ->
  exists page1,
    transactionsList currencyId costCategoryId period startDate endDate
      operation (Some c0) limit w = (w1, Ok page1)
    /\ get_prop page1 "context" = Ok (VNum c1)
    /\ transactionsList currencyId costCategoryId period startDate endDate
         operation (Some c1) limit w1
       = (w2, Ok (VObj [("context", VNum (c1 + Z.of_nat (length items2)));
                        ("left", left2);
                        ("result", VArr items2)])).
Proof.
  intros url c1. subst url. cbv beta.
  intros Hc0 Hc2 Hcall1 Hres1 Hleft1 Hcall2 Hres2 Hleft2.
  assert (Hc1 : exact c1 = true).
  { unfold exact in *. apply Z.leb_le in Hc0, Hc2. apply Z.leb_le.
    subst c1. lia. }
  exists (VObj [("context", VNum c1); ("left", left1);
                ("result", VArr items1)]).
  split; [|split; [reflexivity|]].
  - unfold transactionsList. change (default 0 (Some c0)) with c0.
    unfold bind. rewrite Hcall1. unfold lift, get_prop.
    rewrite Hres1, Hleft1. simpl. fold c1.
    now rewrite (double_round_exact _ Hc1).
  - unfold transactionsList. change (default 0 (Some c1)) with c1.
    unfold bind. rewrite Hcall2. unfold lift, get_prop.
    rewrite Hres2, Hleft2. simpl.
    now rewrite (double_round_exact _ Hc2).
Qed.

(** Requests logged first by two calls of the dispatcher from the same
    world agree as soon as the logs do. *)
Lemma apiCall_log_inj (url method url' method' : string) (body body' : value)
    (w : World) :
  log (apiCall url method body w).1 = log (apiCall url' method' body' w).1 ->
  url = url'.
Proof.
  destruct (apiCall_sends url method body w) as [rest ->].
  destruct (apiCall_sends url' method' body' w) as [rest' ->].
  intros E. apply app_inv_head in E.
  apply (f_equal (fun l => match l with
                           | EvFetch r :: _ => req_url r
                           | _ => ""
                           end)) in E.
  unfold apiRequest in E. simpl in E.
  now apply (inj (String.append BASE_URL)) in E.
Qed.

(** X17.  The operations keyed by an identifier never send the same
    request for two different identifiers of magnitude at most 2^53. *)
Theorem ids_distinguished :
  distinguishes_ids costRetrieve
  /\ (forall body, distinguishes_ids (fun id => costUpdate id body))
  /\ distinguishes_ids costDelete
  /\ distinguishes_ids costShortcutDelete
  /\ (forall body, distinguishes_ids (fun id => costShortcutApply id body))
  /\ distinguishes_ids incomeRetrieve
  /\ (forall body, distinguishes_ids (fun id => incomeUpdate id body))
  /\ distinguishes_ids incomeDelete
  /\ distinguishes_ids exchangeRetrieve
  /\ distinguishes_ids exchangeDelete.
Proof.
  assert (D : forall (m : M value) w,
             (bind m (fun _ => ret VUndefined) w).1 = (m w).1).
  { intros m w. unfold bind, ret. now destruct (m w) as [? [?|?]]. }
  repeat split; intros; intros a b w _ _ E;
    unfold costRetrieve, costUpdate, costDelete, costShortcutDelete,
      costShortcutApply, incomeRetrieve, incomeUpdate, incomeDelete,
      exchangeRetrieve, exchangeDelete in E;
    rewrite ?D in E; apply apiCall_log_inj in E;
    match type of E with
    | ?p +:+ _ = _ => apply (inj (String.append p)) in E
    end;
    exact (inj pretty _ _ E).
Qed.

(** X18.  The filtered analytics query reads an empty filter as an absent
    one: the address, and with it the whole call, is the one for the
    filters with every empty string left out. *)
Theorem fetchBasicAnalyticsFiltered_empty_as_absent
    (filters : AnalyticsFiltersQueryParams) :
  analyticsFilteredUrl filters = analyticsFilteredUrl (read_filters filters)
  /\ fetchBasicAnalyticsFiltered filters
     = fetchBasicAnalyticsFiltered (read_filters filters).
Proof.
  assert (I : forall x, nonempty (nonempty x) = nonempty x).
  { intros [s|]; [|reflexivity]. simpl.
    destruct (String.eqb s "") eqn:E; simpl; [reflexivity|].
    now rewrite E. }
  assert (U : analyticsFilteredUrl filters
              = analyticsFilteredUrl (read_filters filters)).
  { rewrite !analyticsFilteredUrl_shape. unfold read_filters. simpl.
    now rewrite !I. }
  split; [exact U|]. unfold fetchBasicAnalyticsFiltered. now rewrite U.
Qed.

End Pagination.

(* ===================================================================== *)
(** * Further concrete exchanges *)
(* ===================================================================== *)

(** X1 on a page decoded from a 200. *)
Lemma apiCall_success_decodes_witness :
  (@apiCall page_env "/transactions?context=5&limit=15" "GET" VUndefined
     (signed_in "tok")).2 = Ok page.
Proof.
  rewrite (@apiCall_success_decodes page_env
             "/transactions?context=5&limit=15" "GET" VUndefined
             (signed_in "tok") {| status := 200; body_text := "(a page)" |}
             page eq_refl eq_refl ltac:(discriminate) eq_refl).
  reflexivity.
Defined.

(** X2 on a 200 whose body does not decode. *)
Lemma apiCall_malformed_body_witness :
  (@apiCall (fixed_env 200 "<html>" None) "/costs/7" "GET" VUndefined
     (signed_in "tok")).2 = Throw SyntaxError.
Proof.
  rewrite (@apiCall_malformed_body (fixed_env 200 "<html>" None)
             "/costs/7" "GET" VUndefined (signed_in "tok")
             {| status := 200; body_text := "<html>" |}
             eq_refl eq_refl ltac:(discriminate) eq_refl).
  reflexivity.
Defined.

(** X3 without a transport. *)
Lemma apiCall_network_failure_witness :
  (@apiCall offline_env "/costs/7" "GET" VUndefined (signed_in "tok")).2
  = Throw NetworkError.
Proof.
  rewrite (@apiCall_network_failure offline_env "/costs/7" "GET" VUndefined
             (signed_in "tok") eq_refl).
  reflexivity.
Defined.

(** X5 on a page that resolved. *)
Lemma apiCall_resolves_inversion_witness :
  exists response,
    @network page_env
      (@apiRequest page_env "/transactions" "GET" VUndefined
         (Some {| accessToken := "tok" |}))
    = Some response
    /\ ok response = true
    /\ (if status response =? 204 then page = VNull
        else @JSON_parse page_env (body_text response) = Some page)
    /\ persistent
         (@apiCall page_env "/transactions" "GET" VUndefined
            (signed_in "tok")).1
       = persistent (signed_in "tok").
Proof.
  exact (@apiCall_resolves_inversion page_env "/transactions" "GET"
           VUndefined (signed_in "tok")
           (@apiCall page_env "/transactions" "GET" VUndefined
              (signed_in "tok")).1
           page eq_refl).
Defined.



(** X10 on the notifications without a transport. *)
Lemma perform_network_failure_witness :
  (@perform offline_env NotificationsList (signed_in "tok")).2
  = Throw NetworkError.
Proof.
  exact (proj1 (@perform_network_failure offline_env NotificationsList
                  (signed_in "tok")
                  (@apiRequest offline_env "/notifications" "GET" VUndefined
                     (Some {| accessToken := "tok" |}))
                  [] eq_refl eq_refl)).
Defined.

(** X11 on a delete answered 200 with a body that does not decode. *)
Lemma delete_outcome_witness :
  (@perform (fixed_env 200 "" None) (CostDelete 7) (signed_in "tok")).2
  = Throw SyntaxError.
Proof.
  exact (proj2 (proj2
           (@delete_outcome (fixed_env 200 "" None) (CostDelete 7)
              (signed_in "tok")
              (@apiRequest (fixed_env 200 "" None) "/costs/7" "DELETE"
                 VUndefined (Some {| accessToken := "tok" |}))
              [EvJson] {| status := 200; body_text := "" |}
              eq_refl eq_refl eq_refl eq_refl))).
Defined.

(** X12 on the notifications answered 204. *)
Lemma perform_on_204_witness :
  (@perform (fixed_env 204 "" None) NotificationsList (signed_in "tok")).2
  = Throw TypeError.
Proof.
  exact (@perform_on_204 (fixed_env 204 "" None) NotificationsList
           (signed_in "tok")
           (@apiRequest (fixed_env 204 "" None) "/notifications" "GET"
              VUndefined (Some {| accessToken := "tok" |}))
           [] {| status := 204; body_text := "" |}
           eq_refl eq_refl eq_refl).
Defined.

(** X13 on a page of transactions answered with an empty object. *)
Lemma perform_missing_result_witness :
  (@perform (fixed_env 200 "{}" (Some (VObj [])))
     (TransactionsList None None None None None None None None)
     (signed_in "tok")).2
  = Throw TypeError.
Proof.
  exact (@perform_missing_result (fixed_env 200 "{}" (Some (VObj [])))
           (TransactionsList None None None None None None None None)
           (signed_in "tok")
           (@apiRequest (fixed_env 200 "{}" (Some (VObj [])))
              "/transactions?context=0&limit=15" "GET" VUndefined
              (Some {| accessToken := "tok" |}))
           [EvJson] {| status := 200; body_text := "{}" |} []
           eq_refl eq_refl eq_refl eq_refl ltac:(discriminate)
           eq_refl eq_refl).
Defined.

(** X14 with a period that is empty and an operation that is not. *)
Lemma transactionsUrl_separators_witness :
  count_question "/transactions?context=0&limit=15&currencyId=3&period=&operation=cost"
  = 1%nat
  /\ adjacent_separators
       "/transactions?context=0&limit=15&currencyId=3&period=&operation=cost"
     = false
  /\ ends_with_separator
       "/transactions?context=0&limit=15&currencyId=3&period=&operation=cost"
     = false.
Proof.
  exact (transactionsUrl_separators (Some 3) None (Some "") None None
           (Some "cost") 0 15 eq_refl eq_refl eq_refl eq_refl).
Defined.

(** X15 on two calls with different filters and one address. *)
Lemma transactionsUrl_page_inj_witness : 10 = 10 /\ 15 = 15.
Proof.
  exact (transactionsUrl_page_inj None None None None
           (Some "month&startDate=2024-01-01") None None None
           (Some "month") (Some "2024-01-01") None None
           10 15 10 15 eq_refl eq_refl eq_refl eq_refl eq_refl eq_refl
           eq_refl eq_refl eq_refl).
Defined.

(** X16 on a list of three transactions read two to a page. *)
Lemma transactionsList_next_page_witness :
  exists page1,
    @transactionsList paging_env None None None None None None (Some 0)
      (Some 2) (signed_in "tok")
    = ((@apiCall paging_env "/transactions?context=0&limit=2" "GET"
          VUndefined (signed_in "tok")).1, Ok page1)
    /\ get_prop page1 "context" = Ok (VNum 2)
    /\ (@transactionsList paging_env None None None None None None (Some 2)
          (Some 2)
          (@apiCall paging_env "/transactions?context=0&limit=2" "GET"
             VUndefined (signed_in "tok")).1).2
       = Ok (VObj [("context", VNum 3);
                   ("left", VNum 0);
                   ("result", VArr [VStr "t3"])]).
Proof.
  destruct (@transactionsList_next_page paging_env None None None None None
              None 0 (Some 2) (signed_in "tok")
              (@apiCall paging_env "/transactions?context=0&limit=2" "GET"
                 VUndefined (signed_in "tok")).1
              (@apiCall paging_env "/transactions?context=2&limit=2" "GET"
                 VUndefined
                 (@apiCall paging_env "/transactions?context=0&limit=2"
                    "GET" VUndefined (signed_in "tok")).1).1
              [("result", VArr [VStr "t1"; VStr "t2"]);
               ("left", VNum 1); ("context", VNum 0)]
              [("result", VArr [VStr "t3"]);
               ("left", VNum 0); ("context", VNum 0)]
              [VStr "t1"; VStr "t2"] [VStr "t3"] (VNum 1) (VNum 0)
              eq_refl eq_refl eq_refl eq_refl eq_refl eq_refl eq_refl
              eq_refl)
    as (page1 & H1 & H2 & H3).
  exists page1. split; [exact H1|]. split; [exact H2|].
  exact (f_equal snd H3).
Defined.

Section RequestBodies.
Context `{Env}.

(** X19.  The body of the request an operation sends is the JSON text of
    the body it was called with when that body is truthy (any object, the
    empty one included); a body that is [null], [undefined] or otherwise
    falsy is left out, and an operation that takes no body never sends
    one. *)
Theorem perform_request_body
    (op : Operation) (w : World) (req : Request) (rest : list Event) :
  log (perform op w).1 = log w ++ EvFetch req :: rest ->
  req_body req =
  match op_payload op with
  | Some b => if truthy b then Some (JSON_stringify b) else None
  | None => None
  end.
Proof.
  intros Hlog.
  now destruct (perform_by_request op w req rest Hlog)
    as (url & method & body & k & _ & _ & _ & _ & _ & Hbody).
Qed.

End RequestBodies.

(** X19 on an update called with an empty object. *)
Lemma perform_request_body_witness :
  req_body
    (@apiRequest (fixed_env 200 "{}" (Some (VObj [])))
       "/identity/users/configuration" "PATCH" (VObj [])
       (Some {| accessToken := "tok" |}))
  = Some "{}".
Proof.
  exact (@perform_request_body (fixed_env 200 "{}" (Some (VObj [])))
           (ConfigurationUpdate (VObj [])) (signed_in "tok")
           (@apiRequest (fixed_env 200 "{}" (Some (VObj [])))
              "/identity/users/configuration" "PATCH" (VObj [])
              (Some {| accessToken := "tok" |}))
           [EvJson] eq_refl).
Defined.
